(** * MessagesPage: the chat-message view component (src/pages/messages/messages.ts)

    A shallow embedding of the page component: its fields, its handlers as
    functions returning the new state and the requests they issue, the
    callbacks of the reactive layer as events, and the day-group projection
    as a pure function of the local message collection. *)

From Stdlib Require Import ZArith List String Ascii Bool Lia DecimalString Sorted.
Import ListNotations.
Local Open Scope string_scope.
Local Open Scope Z_scope.

(** ** Moment: the part of the date library the page relies on *)

Module Moment.

(** The wall clock read by [Moment()]: the current instant in milliseconds
    since the epoch and the local zone's offset from UTC in minutes (taken
    as fixed). *)
Record Clock := { now : Z; utcOffset : Z }.

Definition msPerDay : Z := 86400000.

(** Number of the local calendar day an instant falls on. *)
Definition localDay (c : Clock) (t : Z) : Z :=
  (t + utcOffset c * 60000) / msPerDay.

(** First instant of a local calendar day. *)
Definition startOfDay (c : Clock) (day : Z) : Z :=
  day * msPerDay - utcOffset c * 60000.

(** Gregorian (year, month 1..12, day of month) of a day number counted
    from 1 January 1970. *)
Definition civil (day : Z) : Z * Z * Z :=
  let z := day + 719468 in
  let era := z / 146097 in
  let doe := z - era * 146097 in
  let yoe := (doe - doe / 1460 + doe / 36524 - doe / 146096) / 365 in
  let doy := doe - (365 * yoe + yoe / 4 - yoe / 100) in
  let mp := (5 * doy + 2) / 153 in
  let d := doy - (153 * mp + 2) / 5 + 1 in
  let m := if mp <? 10 then mp + 3 else mp - 9 in
  let y := yoe + era * 400 + (if m <=? 2 then 1 else 0) in
  (y, m, d).

Definition monthName (m : Z) : string :=
  nth (Z.to_nat (m - 1))
      ["January"; "February"; "March"; "April"; "May"; "June"; "July";
       "August"; "September"; "October"; "November"; "December"] "".

Definition decimal (z : Z) : string := NilZero.string_of_int (Z.to_int z).

(** The names under which an object property is read as a date unit. *)
Definition unitAliases : list string :=
  ["year"; "years"; "y"; "month"; "months"; "M"; "week"; "weeks"; "w";
   "isoweek"; "isoweeks"; "W"; "day"; "days"; "d"; "date"; "dates"; "D";
   "hour"; "hours"; "h"; "minute"; "minutes"; "m"; "second"; "seconds"; "s";
   "millisecond"; "milliseconds"; "ms"; "quarter"; "quarters"; "Q";
   "weekyear"; "weekyears"; "gg"; "isoweekyear"; "isoweekyears"; "GG";
   "dayofyear"; "dayofyears"; "DDD"; "weekday"; "weekdays"; "e";
   "isoweekday"; "isoweekdays"; "E"].

Definition lowerAscii (a : ascii) : ascii :=
  let n := nat_of_ascii a in
  if andb (Nat.leb 65 n) (Nat.leb n 90) then ascii_of_nat (n + 32) else a.

Fixpoint toLowerCase (s : string) : string :=
  match s with
  | EmptyString => EmptyString
  | String a r => String (lowerAscii a) (toLowerCase r)
  end.

(** [normalizeUnits prop] is defined: the property names a date unit,
    as written or in lower case. *)
Definition normalizeUnits (prop : string) : bool :=
  existsb (String.eqb prop) unitAliases
  || existsb (String.eqb (toLowerCase prop)) unitAliases.

(** What [Moment(...)] is applied to.  A plain object is read through its
    date-unit properties; [UnitlessObject] is a non-empty plain object none
    of whose properties names a unit. *)
Inductive Input :=
| NoInput
| DateInput (d : Z)
| UnitlessObject.

(** The instant a moment stands for.  With no argument it is the current
    instant, a Date is taken as it is, and in an object every unit that is
    left out defaults to the current year, month and day of month and to
    zero hours, minutes, seconds and milliseconds. *)
Definition moment (c : Clock) (i : Input) : Z :=
  match i with
  | NoInput => now c
  | DateInput d => d
  | UnitlessObject => startOfDay c (localDay c (now c))
  end.

(** [.format('D MMMM Y')]: day of month, English month name, year. *)
Definition format_D_MMMM_Y (c : Clock) (t : Z) : string :=
  let '(y, m, d) := civil (localDay c t) in
  decimal d ++ " " ++ monthName m ++ " "
  ++ (if y <=? 9999 then decimal y else "+" ++ decimal y).

End Moment.

(** ** Underscore: groupBy *)

Module Underscore.
Section GroupBy.
Context {A : Type}.

Fixpoint push (key : string) (x : A) (groups : list (string * list A))
  : list (string * list A) :=
  match groups with
  | [] => [(key, [x])]
  | (k, xs) :: rest =>
      if String.eqb key k then (k, (xs ++ [x])%list) :: rest
      else (k, xs) :: push key x rest
  end.

(** [_.groupBy(list, iteratee)]: a dictionary from key to the elements
    with that key, in list order; the keys (as [Object.keys] lists
    them, none of them being an array index here) stand in the order of
    their first element. *)
Definition groupBy (l : list A) (iteratee : A -> string)
  : list (string * list A) :=
  fold_left (fun groups x => push (iteratee x) x groups) l [].
End GroupBy.
End Underscore.

(** ** Models (api/models) *)

Module Chat.
(** Modelled from the spec: the Chat model of api/models, which is not
    part of the sources: identifier, title, picture URL. *)
Record t := { _id : string; title : string; picture : string }.
End Chat.

Module Message.
(** Modelled from the spec: the Message model of api/models, which is not
    part of the sources: identifier, chat identifier, sender identifier,
    content, creation timestamp (milliseconds since the epoch), kind, and
    the derived field [ownership], absent until the view sets it. *)
Record t := {
  _id : string;
  chatId : string;
  senderId : option string;
  content : string;
  createdAt : Z;
  type : string;
  ownership : option string
}.

Definition keys : list string :=
  ["_id"; "chatId"; "senderId"; "content"; "createdAt"; "type"; "ownership"].

(** A message document handed to [Moment] is a plain object without any
    date-unit property (see [keys_name_no_unit] below). *)
Definition asMomentInput (m : t) : Moment.Input := Moment.UnitlessObject.

Definition set_ownership (o : string) (m : t) : t :=
  {| _id := _id m; chatId := chatId m; senderId := senderId m;
     content := content m; createdAt := createdAt m; type := type m;
     ownership := Some o |}.
End Message.

(** A day group of the view. *)
Record DayGroup := {
  timestamp : string;
  messages : list Message.t;
  today : bool
}.

(** ** The local collection (api/collections) *)

Module Messages.

Fixpoint insert (m : Message.t) (l : list Message.t) : list Message.t :=
  match l with
  | [] => [m]
  | h :: t =>
      if Message.createdAt m <=? Message.createdAt h then m :: h :: t
      else h :: insert m t
  end.

(** [sort: { createdAt: 1 }] *)
Definition sortByCreatedAt (l : list Message.t) : list Message.t :=
  fold_right insert [] l.

(** [Messages.find({ chatId: id }, { sort: { createdAt: 1 } })] on the
    documents currently in the local collection. *)
Definition find (collection : list Message.t) (id : string)
  : list Message.t :=
  sortByCreatedAt
    (filter (fun m => String.eqb (Message.chatId m) id) collection).

End Messages.

(** Loose equality [==] of two identifiers that may be null or undefined. *)
Definition looseEq (a b : option string) : bool :=
  match a, b with
  | Some x, Some y => String.eqb x y
  | None, None => true
  | _, _ => false
  end.

(** ** The page component *)

(** The observer the page keeps on its message list. *)
Record MutationObserver := { connected : bool }.

(** The handle of a live computation; [computation] tells the computations
    the page creates apart. *)
Record Subscription := { computation : nat }.

(** What an [Observable] of day groups delivers, given the clock and the
    documents of the local collection at the time it emits. *)
Definition DayGroups := Moment.Clock -> list Message.t -> list DayGroup.

(** The fields of [MessagesPage].  [loadingMessages] is read for its truth
    only, so the field left unset by the class is [false]. *)
Record MessagesPage := {
  autoScroller : option MutationObserver;
  loadingMessages : bool;
  message : string;
  messagesBatchCounter : Z;
  messagesComputation : option Subscription;
  messagesDayGroups : option DayGroups;
  picture : string;
  scrollOffset : Z;
  selectedChat : Chat.t;
  senderId : option string;
  title : string
}.

Definition set_autoScroller v (p : MessagesPage) : MessagesPage :=
  {| autoScroller := v; loadingMessages := loadingMessages p;
     message := message p; messagesBatchCounter := messagesBatchCounter p;
     messagesComputation := messagesComputation p;
     messagesDayGroups := messagesDayGroups p; picture := picture p;
     scrollOffset := scrollOffset p; selectedChat := selectedChat p;
     senderId := senderId p; title := title p |}.

Definition set_loadingMessages v (p : MessagesPage) : MessagesPage :=
  {| autoScroller := autoScroller p; loadingMessages := v;
     message := message p; messagesBatchCounter := messagesBatchCounter p;
     messagesComputation := messagesComputation p;
     messagesDayGroups := messagesDayGroups p; picture := picture p;
     scrollOffset := scrollOffset p; selectedChat := selectedChat p;
     senderId := senderId p; title := title p |}.

Definition set_message v (p : MessagesPage) : MessagesPage :=
  {| autoScroller := autoScroller p; loadingMessages := loadingMessages p;
     message := v; messagesBatchCounter := messagesBatchCounter p;
     messagesComputation := messagesComputation p;
     messagesDayGroups := messagesDayGroups p; picture := picture p;
     scrollOffset := scrollOffset p; selectedChat := selectedChat p;
     senderId := senderId p; title := title p |}.

Definition set_messagesBatchCounter v (p : MessagesPage) : MessagesPage :=
  {| autoScroller := autoScroller p; loadingMessages := loadingMessages p;
     message := message p; messagesBatchCounter := v;
     messagesComputation := messagesComputation p;
     messagesDayGroups := messagesDayGroups p; picture := picture p;
     scrollOffset := scrollOffset p; selectedChat := selectedChat p;
     senderId := senderId p; title := title p |}.

Definition set_messagesComputation v (p : MessagesPage) : MessagesPage :=
  {| autoScroller := autoScroller p; loadingMessages := loadingMessages p;
     message := message p; messagesBatchCounter := messagesBatchCounter p;
     messagesComputation := v;
     messagesDayGroups := messagesDayGroups p; picture := picture p;
     scrollOffset := scrollOffset p; selectedChat := selectedChat p;
     senderId := senderId p; title := title p |}.

Definition set_messagesDayGroups v (p : MessagesPage) : MessagesPage :=
  {| autoScroller := autoScroller p; loadingMessages := loadingMessages p;
     message := message p; messagesBatchCounter := messagesBatchCounter p;
     messagesComputation := messagesComputation p;
     messagesDayGroups := v; picture := picture p;
     scrollOffset := scrollOffset p; selectedChat := selectedChat p;
     senderId := senderId p; title := title p |}.

Definition set_scrollOffset v (p : MessagesPage) : MessagesPage :=
  {| autoScroller := autoScroller p; loadingMessages := loadingMessages p;
     message := message p; messagesBatchCounter := messagesBatchCounter p;
     messagesComputation := messagesComputation p;
     messagesDayGroups := messagesDayGroups p; picture := picture p;
     scrollOffset := v; selectedChat := selectedChat p;
     senderId := senderId p; title := title p |}.

(** The element [this.scroller] as the page reads it. *)
Record Scroller := { scrollTop : Z; scrollHeight : Z }.

(** The chain of [ngOnInit] listening to the scroll events: not set up
    before the message count arrives, then listening with the count it
    captured, then ended by [takeUntil]. *)
Inductive ScrollListener :=
| NotListening
| Listening (messagesCount : Z)
| Removed.

(** The page together with what surrounds it: the scroller element, the
    scroll listener, and the callbacks that are still to come
    ([countPending]: the answer of countMessages; [subscriptionsPending]:
    ready callbacks of the messages subscriptions; [acksPending]:
    acknowledgments of text messages; [uploadsPending]: picture uploads);
    [computations] counts the live computations created so far. *)
Record World := {
  page : MessagesPage;
  scroller : Scroller;
  scrollListener : ScrollListener;
  countPending : bool;
  subscriptionsPending : nat;
  acksPending : nat;
  uploadsPending : nat;
  computations : nat
}.

Definition set_page v (w : World) : World :=
  {| page := v; scroller := scroller w; scrollListener := scrollListener w;
     countPending := countPending w;
     subscriptionsPending := subscriptionsPending w;
     acksPending := acksPending w; uploadsPending := uploadsPending w;
     computations := computations w |}.

Definition set_scroller v (w : World) : World :=
  {| page := page w; scroller := v; scrollListener := scrollListener w;
     countPending := countPending w;
     subscriptionsPending := subscriptionsPending w;
     acksPending := acksPending w; uploadsPending := uploadsPending w;
     computations := computations w |}.

Definition set_scrollListener v (w : World) : World :=
  {| page := page w; scroller := scroller w; scrollListener := v;
     countPending := countPending w;
     subscriptionsPending := subscriptionsPending w;
     acksPending := acksPending w; uploadsPending := uploadsPending w;
     computations := computations w |}.

Definition set_countPending v (w : World) : World :=
  {| page := page w; scroller := scroller w;
     scrollListener := scrollListener w; countPending := v;
     subscriptionsPending := subscriptionsPending w;
     acksPending := acksPending w; uploadsPending := uploadsPending w;
     computations := computations w |}.

Definition set_subscriptionsPending v (w : World) : World :=
  {| page := page w; scroller := scroller w;
     scrollListener := scrollListener w; countPending := countPending w;
     subscriptionsPending := v;
     acksPending := acksPending w; uploadsPending := uploadsPending w;
     computations := computations w |}.

Definition set_acksPending v (w : World) : World :=
  {| page := page w; scroller := scroller w;
     scrollListener := scrollListener w; countPending := countPending w;
     subscriptionsPending := subscriptionsPending w;
     acksPending := v; uploadsPending := uploadsPending w;
     computations := computations w |}.

Definition set_uploadsPending v (w : World) : World :=
  {| page := page w; scroller := scroller w;
     scrollListener := scrollListener w; countPending := countPending w;
     subscriptionsPending := subscriptionsPending w;
     acksPending := acksPending w; uploadsPending := v;
     computations := computations w |}.

Definition set_computations v (w : World) : World :=
  {| page := page w; scroller := scroller w;
     scrollListener := scrollListener w; countPending := countPending w;
     subscriptionsPending := subscriptionsPending w;
     acksPending := acksPending w; uploadsPending := uploadsPending w;
     computations := v |}.

(** What the page asks of its collaborators. *)
Inductive Request :=
| Call (method : string) (args : list string)
| Subscribe (name : string) (chatId : string) (batch : Z)
| Autorun
| Observe
| Disconnect
| SetScrollTop (v : Z)
| Upload (file : string)
| Present (component : string).

(** A handler's result: the world it leaves and the requests it issued, in
    order. *)
Definition Outcome : Type := World * list Request.

(** [constructor]: the chat comes from the navigation parameters, the
    sender from [Meteor.userId()]. *)
Definition constructor (chat : Chat.t) (userId : option string)
  (sc : Scroller) : World :=
  {| page :=
       {| autoScroller := None; loadingMessages := false; message := "";
          messagesBatchCounter := 0; messagesComputation := None;
          messagesDayGroups := None; picture := Chat.picture chat;
          scrollOffset := 0; selectedChat := chat; senderId := userId;
          title := Chat.title chat |};
     scroller := sc; scrollListener := NotListening; countPending := false;
     subscriptionsPending := 0; acksPending := 0; uploadsPending := 0;
     computations := 0 |}.

(** ** Handlers *)

(** [findMessagesDayGroups]: finds the messages of the chat, sets their
    ownership, groups them with [_.groupBy] under the label [Moment] formats
    for the message object, and turns the dictionary into an array. *)
Definition findMessagesDayGroups (p : MessagesPage) : DayGroups :=
  fun clock collection =>
    let found := Messages.find collection (Chat._id (selectedChat p)) in
    let format := Moment.format_D_MMMM_Y clock in
    let annotated :=
      map (fun message =>
             Message.set_ownership
               (if looseEq (senderId p) (Message.senderId message)
                then "mine" else "other")
               message)
          found in
    let grouped :=
      Underscore.groupBy annotated
        (fun message =>
           format (Moment.moment clock (Message.asMomentInput message))) in
    map (fun '(label, ms) =>
           {| timestamp := label;
              messages := ms;
              today :=
                String.eqb (format (Moment.moment clock Moment.NoInput))
                           label |})
        grouped.

(** [autorunMessages]: starts a live computation, whose callback (run at
    once, and again by [rerun] below) stores the projection; returns the
    handle. *)
Definition rerun (w : World) : World :=
  set_page
    (set_messagesDayGroups (Some (findMessagesDayGroups (page w))) (page w))
    w.

Definition autorunMessages (w : World) : Subscription * Outcome :=
  ({| computation := computations w |},
   (set_computations (S (computations w)) (rerun w), [Autorun])).

(** [subscribeMessages], up to the request. *)
Definition subscribeMessages (w : World) : Outcome :=
  let p1 := set_loadingMessages true (page w) in
  let p2 := set_scrollOffset (scrollHeight (scroller w)) p1 in
  let batch := messagesBatchCounter p2 + 1 in
  let p3 := set_messagesBatchCounter batch p2 in
  (set_subscriptionsPending (S (subscriptionsPending w)) (set_page p3 w),
   [Subscribe "messages" (Chat._id (selectedChat p3)) batch]).

(** The callback [subscribeMessages] leaves with the subscription. *)
Definition messagesReady (w : World) : Outcome :=
  let '(w1, rs) :=
    match messagesComputation (page w) with
    | None =>
        let '(handle, (w', rs)) := autorunMessages w in
        (set_page (set_messagesComputation (Some handle) (page w')) w', rs)
    | Some _ => (w, [])
    end in
  (set_page (set_loadingMessages false (page w1)) w1, rs).

(** [autoScroll]: a new observer, observing the message list. *)
Definition autoScroll : MutationObserver * list Request :=
  ({| connected := true |}, [Observe]).

(** [scrollDown] *)
Definition scrollDown (w : World) : Outcome :=
  if loadingMessages (page w) then (w, [])
  else
    (set_page (set_scrollOffset 0 (page w)) w,
     [SetScrollTop (scrollHeight (scroller w) - scrollOffset (page w))]).

(** [ngOnInit], up to the call of countMessages. *)
Definition ngOnInit (w : World) : Outcome :=
  let '(observer, r1) := autoScroll in
  let w1 := set_page (set_autoScroller (Some observer) (page w)) w in
  let '(w2, r2) := subscribeMessages w1 in
  (set_countPending true w2, (r1 ++ r2 ++ [Call "countMessages" []])%list).

(** The callback of countMessages: the scroll events are chained, to be
    dropped once [autoRemoveScrollListener messagesCount] signals. *)
Definition countMessagesResult (messagesCount : Z) (w : World) : Outcome :=
  (set_countPending false (set_scrollListener (Listening messagesCount) w),
   []).

(** One scroll event through the chain: [takeUntil], the two filters,
    [forEach]. *)
Definition onScroll (w : World) : Outcome :=
  match scrollListener w with
  | Listening _ =>
      if negb (scrollTop (scroller w) =? 0) then (w, [])
      else if loadingMessages (page w) then (w, [])
      else subscribeMessages w
  | NotListening | Removed => (w, [])
  end.

(** [autoRemoveScrollListener]: the callback on each list [Messages.find()]
    delivers while the chain exists. *)
Definition autoRemoveScrollListener (found : list Message.t) (w : World)
  : Outcome :=
  match scrollListener w with
  | Listening messagesCount =>
      if negb (messagesCount =? Z.of_nat (List.length found)) then (w, [])
      else (set_scrollListener Removed w, [])
  | NotListening | Removed => (w, [])
  end.

(** [ngOnDestroy] *)
Definition ngOnDestroy (w : World) : Outcome :=
  match autoScroller (page w) with
  | Some _ =>
      (set_page (set_autoScroller (Some {| connected := false |}) (page w)) w,
       [Disconnect])
  | None => (w, [])
  end.

(** [sendTextMessage], up to the call. *)
Definition sendTextMessage (w : World) : Outcome :=
  if String.eqb (message (page w)) "" then (w, [])
  else
    (set_acksPending (S (acksPending w)) w,
     [Call "addMessage"
           ["text"; Chat._id (selectedChat (page w)); message (page w)]]).

(** The callback [sendTextMessage] leaves with the call. *)
Definition textMessageAcknowledged (w : World) : Outcome :=
  (set_page (set_message "" (page w)) w, []).

(** [onInputKeypress] *)
Definition onInputKeypress (keyCode : Z) (w : World) : Outcome :=
  if keyCode =? 13 then sendTextMessage w else (w, []).

(** [sendPictureMessage], up to the upload, and its continuation. *)
Definition sendPictureMessage (file : string) (w : World) : Outcome :=
  (set_uploadsPending (S (uploadsPending w)) w, [Upload file]).

Definition pictureUploaded (url : string) (w : World) : Outcome :=
  (w, [Call "addMessage"
            ["picture"; Chat._id (selectedChat (page w)); url]]).

(** [showAttachments], [showOptions], [showPicture] *)
Definition showAttachments (w : World) : Outcome :=
  (w, [Present "MessagesAttachmentsComponent"]).

Definition showOptions (w : World) : Outcome :=
  (w, [Present "MessagesOptionsComponent"]).

Definition showPicture (w : World) : Outcome :=
  (w, [Present "ShowPictureComponent"]).

(** ** Events *)

(** What can happen to the page: the two lifecycle hooks, the user's
    actions, and the callbacks of the collaborators. *)
Inductive Event :=
| NgOnInit
| NgOnDestroy
| CountMessagesResult (messagesCount : Z)
| Scroll
| MessagesReady
| MessagesFound (found : list Message.t)
| Rerun
| Mutation
| Layout (sc : Scroller)
| Typed (text : string)
| Keypress (keyCode : Z)
| SendClicked
| TextMessageAcknowledged
| AttachmentsClicked
| AttachmentsDismissed (file : string)
| PictureUploaded (url : string)
| OptionsClicked
| PictureClicked.

(** Delivery of one event.  A hook runs once, a callback only while it is
    awaited, the observer only while connected; anything else leaves the
    world as it is. *)
Definition step (w : World) (e : Event) : Outcome :=
  match e with
  | NgOnInit =>
      match autoScroller (page w) with
      | None => ngOnInit w
      | Some _ => (w, [])
      end
  | NgOnDestroy =>
      match autoScroller (page w) with
      | Some {| connected := true |} => ngOnDestroy w
      | _ => (w, [])
      end
  | CountMessagesResult n =>
      if countPending w then countMessagesResult n w else (w, [])
  | Scroll => onScroll w
  | MessagesReady =>
      match subscriptionsPending w with
      | S k => messagesReady (set_subscriptionsPending k w)
      | O => (w, [])
      end
  | MessagesFound found => autoRemoveScrollListener found w
  | Rerun =>
      match messagesComputation (page w) with
      | Some _ => (rerun w, [])
      | None => (w, [])
      end
  | Mutation =>
      match autoScroller (page w) with
      | Some {| connected := true |} => scrollDown w
      | _ => (w, [])
      end
  | Layout sc => (set_scroller sc w, [])
  | Typed text => (set_page (set_message text (page w)) w, [])
  | Keypress keyCode => onInputKeypress keyCode w
  | SendClicked => sendTextMessage w
  | TextMessageAcknowledged =>
      match acksPending w with
      | S k => textMessageAcknowledged (set_acksPending k w)
      | O => (w, [])
      end
  | AttachmentsClicked => showAttachments w
  | AttachmentsDismissed file => sendPictureMessage file w
  | PictureUploaded url =>
      match uploadsPending w with
      | S k => pictureUploaded url (set_uploadsPending k w)
      | O => (w, [])
      end
  | OptionsClicked => showOptions w
  | PictureClicked => showPicture w
  end.

(** A sequence of events, with all the requests issued on the way. *)
Fixpoint run (w : World) (events : list Event) : Outcome :=
  match events with
  | [] => (w, [])
  | e :: rest =>
      let '(w1, r1) := step w e in
      let '(w2, r2) := run w1 rest in
      (w2, (r1 ++ r2)%list)
  end.

(** The batches requested by messages subscriptions, in order. *)
Fixpoint batches (rs : list Request) : list Z :=
  match rs with
  | [] => []
  | Subscribe _ _ b :: rest => b :: batches rest
  | _ :: rest => batches rest
  end.

Definition isCall (method : string) (r : Request) : bool :=
  match r with
  | Call m _ => String.eqb m method
  | _ => false
  end.

Definition isSubscribe (r : Request) : bool :=
  match r with
  | Subscribe _ _ _ => true
  | _ => false
  end.

Definition isAutorun (r : Request) : bool :=
  match r with
  | Autorun => true
  | _ => false
  end.

(** ** Notions used to state the properties *)

(** Number of calls of a remote method among the requests. *)
Definition calls (method : string) (rs : list Request) : nat :=
  List.length (filter (isCall method) rs).

(** [increments from l]: the list counts up by one from [from]. *)
Fixpoint increments (from : Z) (l : list Z) : Prop :=
  match l with
  | [] => True
  | b :: rest => b = from + 1 /\ increments b rest
  end.

(** The worlds a page can be in: those some sequence of events leads to
    from a newly constructed page. *)
Definition reachable (w : World) : Prop :=
  exists chat userId sc events,
    w = fst (run (constructor chat userId sc) events).

(** A string in which no white space occurs. *)
Definition isWhitespace (a : ascii) : bool :=
  let n := nat_of_ascii a in
  orb (Nat.eqb n 32) (andb (Nat.leb 9 n) (Nat.leb n 13)).

Fixpoint whitespaceAbsent (s : string) : bool :=
  match s with
  | EmptyString => true
  | String a rest => andb (negb (isWhitespace a)) (whitespaceAbsent rest)
  end.

Definition isNgOnInit (e : Event) : bool :=
  match e with
  | NgOnInit => true
  | _ => false
  end.

(** Messages in the order of their creation. *)
Definition ascending (l : list Message.t) : Prop :=
  Sorted (fun a b => Message.createdAt a <= Message.createdAt b) l.

(** What holds of a page however it got where it is: a subscription is
    awaited exactly while [loadingMessages] is set; before [ngOnInit]
    nothing is loading, the scroll events are not listened to and no count
    is awaited; and the count is awaited only before the listener is set
    up. *)
Record invariant (w : World) : Prop := {
  inv_pending :
    subscriptionsPending w
    = if loadingMessages (page w) then 1%nat else 0%nat;
  inv_new :
    autoScroller (page w) = None ->
    loadingMessages (page w) = false /\ scrollListener w = NotListening
    /\ countPending w = false /\ messagesBatchCounter (page w) = 0;
  inv_count :
    countPending w = true -> scrollListener w = NotListening
}.

(** ** Sample data *)

Definition sampleChat : Chat.t :=
  {| Chat._id := "chat1"; Chat.title := "Ethan Gonzalez";
     Chat.picture := "ethan.jpg" |}.

Definition sampleScroller : Scroller :=
  {| scrollTop := 0; scrollHeight := 500 |}.

Definition sampleWorld : World :=
  constructor sampleChat (Some "me") sampleScroller.

(** 3 January 2017, 00:00 UTC. *)
Definition sampleClock : Moment.Clock :=
  {| Moment.now := 1483401600000; Moment.utcOffset := 0 |}.

(** Sent by the user on 1 January 2017, 10:00 UTC. *)
Definition firstDayMessage : Message.t :=
  {| Message._id := "m1"; Message.chatId := "chat1";
     Message.senderId := Some "me"; Message.content := "Happy new year";
     Message.createdAt := 1483264800000; Message.type := "text";
     Message.ownership := None |}.

(** Sent by the other party on 2 January 2017, 09:00 UTC. *)
Definition secondDayMessage : Message.t :=
  {| Message._id := "m2"; Message.chatId := "chat1";
     Message.senderId := Some "ethan"; Message.content := "You too";
     Message.createdAt := 1483347600000; Message.type := "text";
     Message.ownership := None |}.

(** The page once initialised, the count (2) received and the first batch
    ready. *)
Definition listeningWorld : World :=
  fst (run sampleWorld [NgOnInit; CountMessagesResult 2; MessagesReady]).

(** The same page with "hello" typed into the input field. *)
Definition typedWorld : World := fst (step listeningWorld (Typed "hello")).

(** All the elements held by a dictionary. *)
Definition members {A : Type} (groups : list (string * list A)) : list A :=
  List.concat (map snd groups).

(** ** Further notions *)

(** What [findMessagesDayGroups] makes of one message: the same document
    with its ownership set. *)
Definition annotate (p : MessagesPage) (m : Message.t) : Message.t :=
  Message.set_ownership
    (if looseEq (senderId p) (Message.senderId m) then "mine" else "other")
    m.

(** The chat a request is made for, if it names one. *)
Definition requestChat (r : Request) : option string :=
  match r with
  | Subscribe _ chatId _ => Some chatId
  | Call method (_ :: chatId :: _) =>
      if String.eqb method "addMessage" then Some chatId else None
  | _ => None
  end.

Definition isSetScrollTop (r : Request) : bool :=
  match r with
  | SetScrollTop _ => true
  | _ => false
  end.

Definition isObserverRequest (r : Request) : bool :=
  match r with
  | SetScrollTop _ | Observe | Disconnect => true
  | _ => false
  end.

Definition isUpload (r : Request) : bool :=
  match r with
  | Upload _ => true
  | _ => false
  end.

Definition isPictureCall (r : Request) : bool :=
  match r with
  | Call method (kind :: _) =>
      andb (String.eqb method "addMessage") (String.eqb kind "picture")
  | _ => false
  end.

Definition isCountMessagesResult (e : Event) : bool :=
  match e with
  | CountMessagesResult _ => true
  | _ => false
  end.

Definition isMessagesReady (e : Event) : bool :=
  match e with
  | MessagesReady => true
  | _ => false
  end.

(** A delivery of [Messages.find()] whose length is [c]. *)
Definition findsCount (c : Z) (e : Event) : bool :=
  match e with
  | MessagesFound found => c =? Z.of_nat (List.length found)
  | _ => false
  end.

(** The call [sendTextMessage] makes for the input of a page. *)
Definition textCall (p : MessagesPage) : Request :=
  Call "addMessage" ["text"; Chat._id (selectedChat p); message p].

(** A message of another chat, sent on 2 January 2017. *)
Definition otherChatMessage : Message.t :=
  {| Message._id := "m3"; Message.chatId := "chat2";
     Message.senderId := Some "me"; Message.content := "Elsewhere";
     Message.createdAt := 1483350000000; Message.type := "text";
     Message.ownership := None |}.

Definition sampleCollection : list Message.t :=
  [secondDayMessage; otherChatMessage; firstDayMessage].

(** The page after [ngOnDestroy]. *)
Definition destroyedWorld : World := fst (step listeningWorld NgOnDestroy).

(** The page once initialised and the first batch ready, the answer of
    countMessages still awaited. *)
Definition uncountedWorld : World :=
  fst (run sampleWorld [NgOnInit; MessagesReady]).

(** The page right after [ngOnInit]: the first batch and the count are
    awaited. *)
Definition loadingWorld : World := fst (step sampleWorld NgOnInit).

(** * Properties *)

(** ** The day-group projection *)

Section GroupByFacts.
Context {A : Type}.
Implicit Types (groups : list (string * list A)) (l : list A).

Lemma members_push key x groups a :
  In a (members (Underscore.push key x groups)) <->
  In a (members groups) \/ a = x.
Proof.
  unfold members.
  induction groups as [|[k xs] rest IH]; simpl.
  - intuition.
  - destruct (String.eqb key k); simpl; rewrite ?in_app_iff.
    + simpl. intuition.
    + rewrite IH. intuition.
Qed.

Lemma members_fold f l : forall groups a,
  In a (members (fold_left (fun g x => Underscore.push (f x) x g) l groups))
  <-> In a (members groups) \/ In a l.
Proof.
  induction l as [|x l IH]; intros groups a; simpl.
  - intuition.
  - rewrite IH, members_push. intuition.
Qed.

Lemma members_groupBy f l a :
  In a (members (Underscore.groupBy l f)) <-> In a l.
Proof.
  unfold Underscore.groupBy. rewrite members_fold. simpl. intuition.
Qed.

Lemma in_group_members groups k xs a :
  In (k, xs) groups -> In a xs -> In a (members groups).
Proof.
  intros Hg Ha. unfold members. apply in_concat.
  exists xs. split; [|exact Ha].
  change xs with (snd (k, xs)). now apply in_map.
Qed.

(** With one key for every element there is one group, holding the
    list. *)
Lemma fold_push_same key l : forall xs,
  fold_left (fun g x => Underscore.push key x g) l [(key, xs)]
  = [(key, (xs ++ l)%list)].
Proof.
  induction l as [|x l IH]; intros xs; simpl.
  - now rewrite app_nil_r.
  - rewrite String.eqb_refl, IH, <- app_assoc. reflexivity.
Qed.

Lemma groupBy_ext f g l :
  (forall x, f x = g x) -> Underscore.groupBy l f = Underscore.groupBy l g.
Proof.
  intros Hfg. unfold Underscore.groupBy. generalize (@nil (string * list A)).
  induction l as [|x l IH]; intros acc; simpl; [reflexivity|].
  now rewrite Hfg, IH.
Qed.

Lemma groupBy_constant key l :
  Underscore.groupBy l (fun _ => key)
  = match l with [] => [] | _ => [(key, l)] end.
Proof.
  unfold Underscore.groupBy. destruct l as [|x l]; simpl; [reflexivity|].
  now rewrite fold_push_same.
Qed.
End GroupByFacts.

Lemma looseEq_true a b : looseEq a b = true <-> a = b.
Proof.
  destruct a as [x|], b as [y|]; simpl; try (split; congruence).
  rewrite String.eqb_eq. split; congruence.
Qed.

(** The ownership every message of the projection carries. *)
Lemma projected_ownership p clock collection g m :
  In g (findMessagesDayGroups p clock collection) ->
  In m (messages g) ->
  Message.ownership m
  = Some (if looseEq (senderId p) (Message.senderId m)
          then "mine" else "other").
Proof.
  unfold findMessagesDayGroups. intros Hg Hm.
  apply in_map_iff in Hg. destruct Hg as [[label ms] [<- Hg]].
  simpl in Hm.
  pose proof (in_group_members _ _ _ _ Hg Hm) as H.
  apply members_groupBy in H. apply in_map_iff in H.
  destruct H as [m0 [<- _]]. reflexivity.
Qed.

(** No property of a message document names a date unit. *)
Lemma keys_name_no_unit :
  forallb (fun k => negb (Moment.normalizeUnits k)) Message.keys = true.
Proof. reflexivity. Qed.

Lemma localDay_startOfDay c day :
  Moment.localDay c (Moment.startOfDay c day) = day.
Proof.
  unfold Moment.localDay, Moment.startOfDay, Moment.msPerDay.
  replace (day * 86400000 - Moment.utcOffset c * 60000
           + Moment.utcOffset c * 60000) with (day * 86400000) by lia.
  apply Z.div_mul. lia.
Qed.

(** Every message object is formatted as the current day. *)
Lemma format_message_is_today c m :
  Moment.format_D_MMMM_Y c (Moment.moment c (Message.asMomentInput m))
  = Moment.format_D_MMMM_Y c (Moment.moment c Moment.NoInput).
Proof.
  unfold Moment.format_D_MMMM_Y, Message.asMomentInput, Moment.moment.
  now rewrite localDay_startOfDay.
Qed.

Lemma insert_ascending m l : ascending l -> ascending (Messages.insert m l).
Proof.
  unfold ascending. induction l as [|h t IH]; intros Hs; simpl.
  - repeat constructor.
  - destruct (Message.createdAt m <=? Message.createdAt h) eqn:E.
    + apply Z.leb_le in E. constructor; [exact Hs | now constructor].
    + apply Z.leb_gt in E. inversion Hs as [|? ? Ht Hh]; subst.
      constructor; [now apply IH|].
      destruct t as [|h' t']; simpl.
      * constructor. lia.
      * destruct (Message.createdAt m <=? Message.createdAt h');
          constructor; [lia | now inversion Hh].
Qed.

Lemma find_ascending collection id : ascending (Messages.find collection id).
Proof.
  unfold Messages.find, Messages.sortByCreatedAt.
  induction (filter _ collection) as [|m l IH]; simpl.
  - constructor.
  - now apply insert_ascending.
Qed.

Lemma set_ownership_ascending f l :
  ascending l ->
  ascending (map (fun m => Message.set_ownership (f m) m) l).
Proof.
  unfold ascending. induction 1 as [|m l Hs IH Hh]; simpl; constructor.
  - exact IH.
  - destruct Hh; simpl; constructor. assumption.
Qed.

(** Whatever the creation days, the projection of a chat that has messages
    is one group, labelled with the current day and marked as today, that
    holds all of them in the order of their creation. *)
Lemma findMessagesDayGroups_one_group p clock collection :
  Messages.find collection (Chat._id (selectedChat p)) <> [] ->
  exists ms,
    findMessagesDayGroups p clock collection
    = [{| timestamp :=
            Moment.format_D_MMMM_Y clock (Moment.moment clock Moment.NoInput);
          messages := ms;
          today := true |}]
    /\ List.length ms
       = List.length (Messages.find collection (Chat._id (selectedChat p)))
    /\ ascending ms.
Proof.
  intros Hne. unfold findMessagesDayGroups.
  set (found := Messages.find collection (Chat._id (selectedChat p))) in *.
  set (annotated := map _ found).
  exists annotated. split; [|split].
  - rewrite (groupBy_ext _ _ _ (format_message_is_today clock)).
    rewrite groupBy_constant.
    destruct annotated eqn:E.
    + subst annotated. destruct found; [congruence | discriminate].
    + simpl. now rewrite String.eqb_refl.
  - subst annotated. apply length_map.
  - subst annotated found.
    apply (set_ownership_ascending
             (fun m => if looseEq (senderId p) (Message.senderId m)
                       then "mine" else "other")).
    apply find_ascending.
Qed.

(** C7: every message of the projection is marked "mine" exactly when its
    sender is the current user, and "other" otherwise. *)
Theorem C7_ownership_annotation p clock collection g m :
  In g (findMessagesDayGroups p clock collection) ->
  In m (messages g) ->
  (Message.ownership m = Some "mine" <-> Message.senderId m = senderId p)
  /\ (Message.senderId m <> senderId p -> Message.ownership m = Some "other").
Proof.
  intros Hg Hm. rewrite (projected_ownership _ _ _ _ _ Hg Hm).
  destruct (looseEq (senderId p) (Message.senderId m)) eqn:E.
  - apply looseEq_true in E. split; [split; congruence | congruence].
  - split.
    + split; [discriminate|].
      intros H. symmetry in H. apply looseEq_true in H. congruence.
    + reflexivity.
Qed.

Lemma C7_ownership_annotation_witness :
  (Message.ownership (Message.set_ownership "mine" firstDayMessage)
   = Some "mine"
   <-> Message.senderId (Message.set_ownership "mine" firstDayMessage)
       = senderId (page sampleWorld))
  /\ (Message.senderId (Message.set_ownership "mine" firstDayMessage)
      <> senderId (page sampleWorld) ->
      Message.ownership (Message.set_ownership "mine" firstDayMessage)
      = Some "other").
Proof.
  apply (C7_ownership_annotation (page sampleWorld) sampleClock
           [secondDayMessage; firstDayMessage]
           {| timestamp := "3 January 2017";
              messages := [Message.set_ownership "mine" firstDayMessage;
                           Message.set_ownership "other" secondDayMessage];
              today := true |}).
  - vm_compute. left. reflexivity.
  - simpl. left. reflexivity.
Defined.

(** C1: two messages of the chat, created on 1 and on 2 January 2017 and
    projected on 3 January 2017, come out as one day group, labelled with
    the current day and marked as today, not as two groups labelled with
    their creation days. *)
Theorem C1_two_creation_days_one_group :
  Moment.format_D_MMMM_Y sampleClock (Message.createdAt firstDayMessage)
  = "1 January 2017"
  /\ Moment.format_D_MMMM_Y sampleClock (Message.createdAt secondDayMessage)
     = "2 January 2017"
  /\ findMessagesDayGroups (page sampleWorld) sampleClock
       [secondDayMessage; firstDayMessage]
     = [{| timestamp := "3 January 2017";
           messages := [Message.set_ownership "mine" firstDayMessage;
                        Message.set_ownership "other" secondDayMessage];
           today := true |}].
Proof. repeat split; vm_compute; reflexivity. Qed.

(** ** Runs *)

Ltac handlers :=
  cbv [step ngOnInit ngOnDestroy countMessagesResult onScroll
       messagesReady autoRemoveScrollListener scrollDown onInputKeypress
       sendTextMessage textMessageAcknowledged sendPictureMessage
       pictureUploaded showAttachments showOptions showPicture
       subscribeMessages autorunMessages autoScroll rerun
       set_page set_scroller set_scrollListener set_countPending
       set_subscriptionsPending set_acksPending set_uploadsPending
       set_computations set_autoScroller set_loadingMessages set_message
       set_messagesBatchCounter set_messagesComputation
       set_messagesDayGroups set_scrollOffset
       page scroller scrollListener countPending subscriptionsPending
       acksPending uploadsPending computations
       autoScroller loadingMessages message messagesBatchCounter
       messagesComputation messagesDayGroups picture scrollOffset
       selectedChat senderId title connected
       fst snd app negb] in *.

Ltac branches :=
  repeat match goal with
         | |- context [match ?x with _ => _ end] => is_var x; destruct x eqn:?
         | |- context [if ?x then _ else _] => destruct x eqn:?
         end.

(** Takes a world apart, runs the handler of the event and splits on every
    test it makes. *)
Ltac pairs :=
  repeat match goal with
         | H : (_, _) = (_, _) |- _ => inversion H; subst; clear H
         end.

Ltac by_cases w e :=
  destruct w as [[] ? ? ? ? ? ? ?]; destruct e; handlers;
  branches; pairs; handlers.

Lemma run_cons w e rest :
  run w (e :: rest)
  = (fst (run (fst (step w e)) rest),
     (snd (step w e) ++ snd (run (fst (step w e)) rest))%list).
Proof.
  simpl. destruct (step w e) as [w1 r1]. simpl.
  destruct (run w1 rest) as [w2 r2]. reflexivity.
Qed.

Lemma run_app w l1 l2 :
  run w (l1 ++ l2)
  = (fst (run (fst (run w l1)) l2),
     (snd (run w l1) ++ snd (run (fst (run w l1)) l2))%list).
Proof.
  revert w. induction l1 as [|e l1 IH]; intros w.
  - simpl. now destruct (run w l2).
  - rewrite <- app_comm_cons, !run_cons, IH. simpl.
    now rewrite app_assoc.
Qed.

(** A property kept by every event is kept by every run. *)
Lemma run_invariant (P : World -> Prop) :
  (forall w e, P w -> P (fst (step w e))) ->
  forall events w, P w -> P (fst (run w events)).
Proof.
  intros Hstep events. induction events as [|e rest IH]; intros w Hw.
  - exact Hw.
  - rewrite run_cons. simpl. apply IH, Hstep, Hw.
Qed.

(** If no event issues a request of some kind from a world with [P], no
    run does. *)
Lemma run_requests (P : World -> Prop) (R : Request -> Prop) :
  (forall w e, P w -> P (fst (step w e)) /\ Forall R (snd (step w e))) ->
  forall events w, P w -> Forall R (snd (run w events)).
Proof.
  intros Hstep events. induction events as [|e rest IH]; intros w Hw.
  - constructor.
  - rewrite run_cons. simpl. apply Forall_app. split.
    + apply Hstep, Hw.
    + apply IH, Hstep, Hw.
Qed.

Lemma invariant_constructor chat userId sc :
  invariant (constructor chat userId sc).
Proof. split; simpl; intros; auto; discriminate. Qed.

Lemma invariant_step w e : invariant w -> invariant (fst (step w e)).
Proof.
  intros [H1 H2 H3].
  by_cases w e; split; simpl in *; intros; subst;
    try discriminate; try congruence;
    repeat match goal with
           | H : ?a = ?a -> _ |- _ => specialize (H eq_refl)
           | H : _ /\ _ |- _ => destruct H
           end;
    subst; try discriminate; try congruence; auto;
    match goal with
    | H : context [if ?b then _ else _] |- _ => destruct b; congruence
    end.
Qed.

Lemma invariant_reachable w : reachable w -> invariant w.
Proof.
  intros (chat & userId & sc & events & ->).
  apply run_invariant; [exact invariant_step | apply invariant_constructor].
Qed.

(** ** Sending *)

(** Only typing and an acknowledgment write the input field. *)
Lemma message_kept w e :
  e <> TextMessageAcknowledged -> (forall text, e <> Typed text) ->
  message (page (fst (step w e))) = message (page w).
Proof.
  intros Hack Htyped.
  by_cases w e; try reflexivity; try congruence.
Qed.

(** C2: with a non-empty input, [sendTextMessage] issues one request, the
    call of addMessage with "text", the chat's id and the input as it is;
    it leaves the page, the input included, as it was; the input is emptied
    by the acknowledgment, and by no other event than that and typing. *)
Theorem C2_text_message_sent_once w :
  message (page w) <> "" ->
  snd (sendTextMessage w)
  = [Call "addMessage"
          ["text"; Chat._id (selectedChat (page w)); message (page w)]]
  /\ page (fst (sendTextMessage w)) = page w
  /\ acksPending (fst (sendTextMessage w)) = S (acksPending w)
  /\ step (fst (sendTextMessage w)) TextMessageAcknowledged
     = (set_page (set_message "" (page w)) w, [])
  /\ (forall w' e,
        e <> TextMessageAcknowledged -> (forall text, e <> Typed text) ->
        message (page (fst (step w' e))) = message (page w')).
Proof.
  intros Hne. unfold sendTextMessage.
  destruct (String.eqb (message (page w)) "") eqn:E.
  - apply String.eqb_eq in E. contradiction.
  - simpl. split; [reflexivity | split; [reflexivity | split; [reflexivity|]]].
    split; [| exact message_kept].
    destruct w as [[] ? ? ? ? ? ? ?]. reflexivity.
Qed.

Lemma C2_text_message_sent_once_witness :
  snd (sendTextMessage typedWorld) = [Call "addMessage" ["text"; "chat1"; "hello"]]
  /\ message (page (fst (sendTextMessage typedWorld))) = "hello"
  /\ message
       (page (fst (step (fst (sendTextMessage typedWorld))
                        TextMessageAcknowledged))) = "".
Proof.
  assert (Hne : message (page typedWorld) <> "") by (vm_compute; discriminate).
  destruct (C2_text_message_sent_once typedWorld Hne)
    as (Hcall & Hpage & _ & Hack & _).
  split; [exact Hcall | split].
  - rewrite Hpage. reflexivity.
  - rewrite Hack. reflexivity.
Defined.

(** C3, as worded: "abc" is an input in which white space is absent, yet
    [sendTextMessage] does issue a call for it; so it does for an input of
    white space only. *)
Lemma C3_whitespace_absent_input_is_sent :
  ~ (forall w,
       message (page w) = ""
       \/ whitespaceAbsent (message (page w)) = true ->
       sendTextMessage w = (w, []))
  /\ snd (sendTextMessage (fst (step sampleWorld (Typed " "))))
     = [Call "addMessage" ["text"; "chat1"; " "]].
Proof.
  split; [|reflexivity].
  intros H.
  specialize (H (fst (step sampleWorld (Typed "abc")))).
  assert (Hw : whitespaceAbsent "abc" = true) by reflexivity.
  specialize (H (or_intror Hw)). vm_compute in H. discriminate.
Qed.

(** C3, amended: with the empty input [sendTextMessage] issues no request
    and leaves everything as it was. *)
Theorem C3_empty_input_no_op w :
  message (page w) = "" -> sendTextMessage w = (w, []).
Proof.
  intros E. unfold sendTextMessage. now rewrite E.
Qed.

Lemma C3_empty_input_no_op_witness :
  sendTextMessage listeningWorld = (listeningWorld, []).
Proof. apply (C3_empty_input_no_op listeningWorld). reflexivity. Defined.

(** C10: [onInputKeypress] is [sendTextMessage] for key code 13 and does
    nothing for any other key code; with a non-empty input a request is
    issued exactly for key code 13. *)
Theorem C10_enter_sends keyCode w :
  (keyCode = 13 -> onInputKeypress keyCode w = sendTextMessage w)
  /\ (keyCode <> 13 -> onInputKeypress keyCode w = (w, []))
  /\ (message (page w) <> "" ->
      (snd (onInputKeypress keyCode w) <> [] <-> keyCode = 13)).
Proof.
  unfold onInputKeypress.
  destruct (keyCode =? 13) eqn:E;
    [apply Z.eqb_eq in E | apply Z.eqb_neq in E].
  - repeat split; intros; try reflexivity; try contradiction; try assumption.
    unfold sendTextMessage.
    destruct (String.eqb (message (page w)) "") eqn:Em.
    + apply String.eqb_eq in Em. contradiction.
    + discriminate.
  - repeat split; intros; try reflexivity; try contradiction.
Qed.

Lemma C10_enter_sends_witness :
  onInputKeypress 13 typedWorld = sendTextMessage typedWorld
  /\ onInputKeypress 65 typedWorld = (typedWorld, [])
  /\ (snd (onInputKeypress 13 typedWorld) <> [] <-> 13 = 13).
Proof.
  destruct (C10_enter_sends 13 typedWorld) as (Henter & _ & Hiff).
  destruct (C10_enter_sends 65 typedWorld) as (_ & Hother & _).
  split; [apply Henter; reflexivity | split].
  - apply Hother. discriminate.
  - apply Hiff. vm_compute. discriminate.
Defined.

(** ** Scrolling *)

(** C6: while the observer is connected, an insertion into the message list
    sets the scroll position to the scroll height less the saved offset and
    zeroes the offset if nothing is loading, and does nothing if something
    is; and whenever an event issues a messages subscription, the offset it
    leaves is the scroll height at the time of the request. *)
Theorem C6_auto_scroll w :
  (autoScroller (page w) = Some {| connected := true |} ->
   (loadingMessages (page w) = false ->
    step w Mutation
    = (set_page (set_scrollOffset 0 (page w)) w,
       [SetScrollTop (scrollHeight (scroller w) - scrollOffset (page w))]))
   /\ (loadingMessages (page w) = true -> step w Mutation = (w, [])))
  /\ (forall e,
        existsb isSubscribe (snd (step w e)) = true ->
        scrollOffset (page (fst (step w e))) = scrollHeight (scroller w))
  /\ scrollOffset (page (fst (subscribeMessages w)))
     = scrollHeight (scroller w).
Proof.
  split; [|split].
  - intros Hobs. simpl. rewrite Hobs. unfold scrollDown.
    split; intros ->; reflexivity.
  - intros e. by_cases w e; simpl; intros; try discriminate; reflexivity.
  - reflexivity.
Qed.

Lemma C6_auto_scroll_witness :
  step listeningWorld Mutation
  = (set_page (set_scrollOffset 0 (page listeningWorld)) listeningWorld,
     [SetScrollTop 0])
  /\ scrollOffset (page (fst (step listeningWorld Scroll))) = 500.
Proof.
  destruct (C6_auto_scroll listeningWorld) as (Hmut & Hsub & _).
  split.
  - apply Hmut; reflexivity.
  - apply (Hsub Scroll). reflexivity.
Defined.

(** C4, as worded: not every scroll event at the top of an idle page
    requests a batch.  The chain that handles scroll events is set up only
    when countMessages answers; on a page whose first batch is ready but
    whose count is still awaited, a scroll event at the top with
    [loadingMessages] unset issues nothing and leaves the counter. *)
Lemma C4_scroll_before_count_is_ignored :
  reachable uncountedWorld
  /\ scrollTop (scroller uncountedWorld) = 0
  /\ loadingMessages (page uncountedWorld) = false
  /\ step uncountedWorld Scroll = (uncountedWorld, [])
  /\ ~ (forall w,
          reachable w ->
          scrollTop (scroller w) = 0 ->
          loadingMessages (page w) = false ->
          messagesBatchCounter (page (fst (step w Scroll)))
          = messagesBatchCounter (page w) + 1
          /\ snd (step w Scroll)
             = [Subscribe "messages" (Chat._id (selectedChat (page w)))
                          (messagesBatchCounter (page (fst (step w Scroll))))]).
Proof.
  assert (Hr : reachable uncountedWorld).
  { exists sampleChat, (Some "me"), sampleScroller, [NgOnInit; MessagesReady].
    reflexivity. }
  split; [exact Hr|].
  split; [reflexivity|]. split; [reflexivity|]. split; [reflexivity|].
  intros H. destruct (H uncountedWorld Hr eq_refl eq_refl) as [_ Hs].
  vm_compute in Hs. discriminate.
Qed.

(** C4, amended: a scroll event at the top does nothing while
    [loadingMessages] is set; while it is not, and the scroll events are
    listened to (from the answer of countMessages until the listener is
    removed), it adds one to [messagesBatchCounter] and issues one
    subscription, with the new count; and on a page however reached at
    most one subscription is awaited, exactly while [loadingMessages] is
    set. *)
Theorem C4_scroll_to_top w :
  scrollTop (scroller w) = 0 ->
  (loadingMessages (page w) = true -> step w Scroll = (w, []))
  /\ (loadingMessages (page w) = false ->
      forall c, scrollListener w = Listening c ->
      messagesBatchCounter (page (fst (step w Scroll)))
      = messagesBatchCounter (page w) + 1
      /\ snd (step w Scroll)
         = [Subscribe "messages" (Chat._id (selectedChat (page w)))
                      (messagesBatchCounter (page (fst (step w Scroll))))]
      /\ loadingMessages (page (fst (step w Scroll))) = true
      /\ subscriptionsPending (fst (step w Scroll))
         = S (subscriptionsPending w))
  /\ (reachable w ->
      (subscriptionsPending w <= 1)%nat
      /\ (subscriptionsPending w = 1%nat <-> loadingMessages (page w) = true)).
Proof.
  intros Htop. split; [|split].
  - intros Hload. simpl. unfold onScroll. rewrite Hload.
    destruct (scrollListener w); try reflexivity.
    now destruct (negb (scrollTop (scroller w) =? 0)).
  - intros Hload c Hc. simpl. unfold onScroll.
    rewrite Hc, Htop, Hload. simpl. repeat split.
  - intros Hr. apply invariant_reachable in Hr. destruct Hr as [Hp _ _].
    rewrite Hp. destruct (loadingMessages (page w)); split;
      try lia; split; congruence.
Qed.

Lemma listeningWorld_reachable : reachable listeningWorld.
Proof.
  exists sampleChat, (Some "me"), sampleScroller,
    [NgOnInit; CountMessagesResult 2; MessagesReady].
  reflexivity.
Qed.

Lemma C4_scroll_to_top_witness :
  snd (step listeningWorld Scroll) = [Subscribe "messages" "chat1" 2]
  /\ step (fst (step listeningWorld Scroll)) Scroll
     = (fst (step listeningWorld Scroll), [])
  /\ (subscriptionsPending listeningWorld <= 1)%nat.
Proof.
  destruct (C4_scroll_to_top listeningWorld eq_refl) as (_ & Hidle & Hone).
  destruct (C4_scroll_to_top (fst (step listeningWorld Scroll)) eq_refl)
    as (Hbusy & _ & _).
  split; [|split].
  - apply (Hidle eq_refl 2 eq_refl).
  - apply Hbusy. reflexivity.
  - apply Hone, listeningWorld_reachable.
Defined.

Lemma filter_nil_Forall {A} (f : A -> bool) (l : list A) :
  Forall (fun x => f x = false) l -> filter f l = [].
Proof.
  induction 1 as [|x l Hx _ IH]; simpl; [reflexivity|].
  now rewrite Hx.
Qed.

(** Once the listener is removed it stays removed, and no event issues a
    subscription. *)
Lemma removed_step w e :
  invariant w /\ scrollListener w = Removed ->
  (invariant (fst (step w e)) /\ scrollListener (fst (step w e)) = Removed)
  /\ Forall (fun r => isSubscribe r = false) (snd (step w e)).
Proof.
  intros [Hinv Hrem]. split; [split; [now apply invariant_step|]|];
    destruct Hinv as [_ Hnew Hcount];
    by_cases w e; subst; simpl in *;
      repeat constructor; try congruence; try discriminate;
      try (specialize (Hcount eq_refl); discriminate);
      try (destruct (Hnew eq_refl) as (_ & ? & _); discriminate).
Qed.

(** The count a listener captured is never replaced. *)
Lemma captured_step c w e :
  invariant w
  /\ (scrollListener w = Listening c \/ scrollListener w = Removed) ->
  invariant (fst (step w e))
  /\ (scrollListener (fst (step w e)) = Listening c
      \/ scrollListener (fst (step w e)) = Removed).
Proof.
  intros [Hinv Hl]. split; [now apply invariant_step|].
  destruct Hinv as [_ _ Hcount].
  by_cases w e; subst; simpl in *; auto;
    specialize (Hcount eq_refl); destruct Hl; congruence.
Qed.

(** C5: on a page listening to the scroll events with captured count [c],
    the count is never replaced, whatever happens later; a list delivered
    by [Messages.find()] removes the listener exactly if its length is
    [c]; and once that has happened the listener stays removed and no
    event, scroll events included, issues a subscription. *)
Theorem C5_listener_removed w c :
  reachable w -> scrollListener w = Listening c ->
  (forall events,
     scrollListener (fst (run w events)) = Listening c
     \/ scrollListener (fst (run w events)) = Removed)
  /\ (forall found,
        scrollListener (fst (step w (MessagesFound found))) = Removed
        <-> Z.of_nat (List.length found) = c)
  /\ (forall found events,
        Z.of_nat (List.length found) = c ->
        scrollListener (fst (run (fst (step w (MessagesFound found))) events))
        = Removed
        /\ filter isSubscribe
             (snd (run (fst (step w (MessagesFound found))) events))
           = []).
Proof.
  intros Hr Hc. apply invariant_reachable in Hr.
  assert (Hfound : forall found,
             scrollListener (fst (step w (MessagesFound found))) = Removed
             <-> Z.of_nat (List.length found) = c).
  { intros found. simpl. unfold autoRemoveScrollListener. rewrite Hc.
    destruct (c =? Z.of_nat (List.length found)) eqn:E; simpl.
    - apply Z.eqb_eq in E. split; [congruence | reflexivity].
    - apply Z.eqb_neq in E. rewrite Hc. split; [discriminate | congruence]. }
  split; [|split].
  - intros events.
    apply (run_invariant
             (fun w => invariant w
                       /\ (scrollListener w = Listening c
                           \/ scrollListener w = Removed))).
    + intros w' e. apply captured_step.
    + auto.
  - exact Hfound.
  - intros found events Hlen.
    set (w1 := fst (step w (MessagesFound found))).
    assert (H1 : invariant w1 /\ scrollListener w1 = Removed).
    { split; [now apply invariant_step | now apply Hfound]. }
    split.
    + apply (run_invariant
               (fun w => invariant w /\ scrollListener w = Removed));
        [intros w' e Hw'; now apply removed_step | exact H1].
    + apply filter_nil_Forall.
      apply (run_requests
               (fun w => invariant w /\ scrollListener w = Removed));
        [intros w' e Hw'; now apply removed_step | exact H1].
Qed.

Lemma C5_listener_removed_witness :
  scrollListener
    (fst (step listeningWorld
            (MessagesFound [firstDayMessage; secondDayMessage]))) = Removed
  /\ filter isSubscribe
       (snd (run (fst (step listeningWorld
                         (MessagesFound [firstDayMessage; secondDayMessage])))
                 [Scroll; CountMessagesResult 3; Scroll]))
     = [].
Proof.
  destruct (C5_listener_removed listeningWorld 2 listeningWorld_reachable
              eq_refl) as (_ & Hfound & Hafter).
  split.
  - apply Hfound. reflexivity.
  - apply Hafter. reflexivity.
Defined.

(** ** Initialisation and pagination *)

Lemma batches_app a b : batches (a ++ b) = (batches a ++ batches b)%list.
Proof.
  induction a as [|r a IH]; simpl; [reflexivity|].
  destruct r; simpl; now rewrite ?IH.
Qed.

Lemma calls_app m a b : calls m (a ++ b) = (calls m a + calls m b)%nat.
Proof. unfold calls. now rewrite filter_app, length_app. Qed.

Lemma increments_app from a b :
  increments from a ->
  increments (from + Z.of_nat (List.length a)) b ->
  increments from (a ++ b).
Proof.
  revert from. induction a as [|x a IH]; intros from Ha Hb; simpl in *.
  - now rewrite Z.add_0_r in Hb.
  - destruct Ha as [-> Ha]. split; [reflexivity|].
    apply IH; [exact Ha|].
    replace (from + 1 + Z.of_nat (List.length a))
      with (from + Z.pos (Pos.of_succ_nat (List.length a))) by lia.
    exact Hb.
Qed.

(** An event requests no batch and leaves the counter, or requests the
    next batch and counts it. *)
Lemma step_batches w e :
  (batches (snd (step w e)) = []
   /\ messagesBatchCounter (page (fst (step w e)))
      = messagesBatchCounter (page w))
  \/ (batches (snd (step w e)) = [messagesBatchCounter (page w) + 1]
      /\ messagesBatchCounter (page (fst (step w e)))
         = messagesBatchCounter (page w) + 1).
Proof. by_cases w e; simpl; auto. Qed.

Lemma run_batches events : forall w,
  increments (messagesBatchCounter (page w)) (batches (snd (run w events)))
  /\ messagesBatchCounter (page (fst (run w events)))
     = messagesBatchCounter (page w)
       + Z.of_nat (List.length (batches (snd (run w events)))).
Proof.
  induction events as [|e rest IH]; intros w.
  - simpl. split; [exact I | lia].
  - rewrite run_cons. simpl. rewrite batches_app, length_app.
    destruct (IH (fst (step w e))) as [Hinc Hcount].
    destruct (step_batches w e) as [[Hb Hc] | [Hb Hc]];
      rewrite Hb; rewrite Hc in Hinc, Hcount; simpl.
    + split; [exact Hinc | lia].
    + split; [split; [reflexivity | exact Hinc] | lia].
Qed.

(** Only [ngOnInit] asks for the count, and it runs on a new page only. *)
Lemma step_calls w e :
  calls "countMessages" (snd (step w e))
  = match autoScroller (page w) with
    | None => if isNgOnInit e then 1%nat else 0%nat
    | Some _ => 0%nat
    end
  /\ (autoScroller (page (fst (step w e))) = None
      <-> autoScroller (page w) = None /\ isNgOnInit e = false).
Proof.
  by_cases w e; simpl in *; try discriminate; split; try reflexivity;
    split; try intros [? ?]; try split; try discriminate; congruence.
Qed.

Lemma run_calls_initialised events : forall w,
  autoScroller (page w) <> None ->
  calls "countMessages" (snd (run w events)) = 0%nat.
Proof.
  induction events as [|e rest IH]; intros w Hw; [reflexivity|].
  rewrite run_cons. simpl. rewrite calls_app.
  destruct (step_calls w e) as [Hc Ha].
  rewrite Hc, IH.
  - destruct (autoScroller (page w)); [reflexivity | congruence].
  - rewrite Ha. intros [? _]. contradiction.
Qed.

Lemma run_calls_new events : forall w,
  autoScroller (page w) = None ->
  calls "countMessages" (snd (run w events))
  = if existsb isNgOnInit events then 1%nat else 0%nat.
Proof.
  induction events as [|e rest IH]; intros w Hw; [reflexivity|].
  rewrite run_cons. simpl. rewrite calls_app.
  destruct (step_calls w e) as [Hc Ha]. rewrite Hc, Hw.
  destruct (isNgOnInit e) eqn:E; simpl.
  - rewrite run_calls_initialised; [reflexivity|].
    rewrite Ha. intros [_ ?]. discriminate.
  - apply IH. apply Ha. now split.
Qed.

(** C8: [ngOnInit] on a new page observes the list, subscribes to batch 1
    and asks for the count; over any sequence of events the count is asked
    for at most once, and once if [ngOnInit] is among them; the batches
    requested count up by one from 1, and [messagesBatchCounter] is their
    number. *)
Theorem C8_initialisation chat userId sc events :
  snd (ngOnInit (constructor chat userId sc))
  = [Observe; Subscribe "messages" (Chat._id chat) 1;
     Call "countMessages" []]
  /\ (calls "countMessages" (snd (run (constructor chat userId sc) events))
      <= 1)%nat
  /\ (In NgOnInit events ->
      calls "countMessages" (snd (run (constructor chat userId sc) events))
      = 1%nat)
  /\ increments 0 (batches (snd (run (constructor chat userId sc) events)))
  /\ messagesBatchCounter (page (fst (run (constructor chat userId sc) events)))
     = Z.of_nat
         (List.length
            (batches (snd (run (constructor chat userId sc) events)))).
Proof.
  split; [reflexivity|].
  rewrite (run_calls_new events (constructor chat userId sc) eq_refl).
  split; [destruct (existsb isNgOnInit events); lia | split].
  - intros Hin.
    replace (existsb isNgOnInit events) with true; [reflexivity|].
    symmetry. apply existsb_exists. exists NgOnInit. now split.
  - destruct (run_batches events (constructor chat userId sc)) as [Hi Hc].
    split; [exact Hi | exact Hc].
Qed.

Lemma C8_initialisation_witness :
  calls "countMessages"
    (snd (run sampleWorld [NgOnInit; MessagesReady; NgOnInit; Scroll]))
  = 1%nat.
Proof.
  destruct (C8_initialisation sampleChat (Some "me") sampleScroller
              [NgOnInit; MessagesReady; NgOnInit; Scroll])
    as (_ & _ & Honce & _).
  apply Honce. left. reflexivity.
Defined.

(** ** The live computation *)

Lemma filter_app_nil {A} (f : A -> bool) a b :
  filter f a = [] -> filter f b = [] -> filter f (a ++ b) = [].
Proof. intros Ha Hb. now rewrite filter_app, Ha, Hb. Qed.

(** With the computation in place no event starts another or replaces the
    handle. *)
Lemma computation_kept h w e :
  messagesComputation (page w) = Some h ->
  messagesComputation (page (fst (step w e))) = Some h
  /\ filter isAutorun (snd (step w e)) = [].
Proof. intros H. by_cases w e; simpl; split; congruence. Qed.

Lemma computation_kept_run h events : forall w,
  messagesComputation (page w) = Some h ->
  messagesComputation (page (fst (run w events))) = Some h
  /\ filter isAutorun (snd (run w events)) = [].
Proof.
  induction events as [|e rest IH]; intros w Hw; [now split|].
  rewrite run_cons. simpl.
  destruct (computation_kept h w e Hw) as [H1 H2].
  destruct (IH _ H1) as [H3 H4].
  split; [exact H3 | now apply filter_app_nil].
Qed.

(** Without it an event starts none, or starts one and stores its
    handle. *)
Lemma computation_started w e :
  messagesComputation (page w) = None ->
  (messagesComputation (page (fst (step w e))) = None
   /\ filter isAutorun (snd (step w e)) = [])
  \/ (messagesComputation (page (fst (step w e)))
      = Some {| computation := computations w |}
      /\ filter isAutorun (snd (step w e)) = [Autorun]
      /\ e = MessagesReady).
Proof. intros H. by_cases w e; simpl; auto; congruence. Qed.

Lemma at_most_one_computation events : forall w,
  messagesComputation (page w) = None ->
  (List.length (filter isAutorun (snd (run w events))) <= 1)%nat.
Proof.
  induction events as [|e rest IH]; intros w Hw; [simpl; lia|].
  rewrite run_cons. simpl. rewrite filter_app, length_app.
  destruct (computation_started w e Hw) as [[H1 H2] | (H1 & H2 & _)];
    rewrite H2; simpl.
  - now apply IH.
  - destruct (computation_kept_run _ rest _ H1) as [_ ->]. simpl. lia.
Qed.

(** C9: the first ready callback starts the live computation and stores
    its handle; from then on every event, ready callbacks included, leaves
    the handle as it is and starts no computation; so over the life of a
    page at most one is started. *)
Theorem C9_one_computation w :
  (forall k,
     messagesComputation (page w) = None -> subscriptionsPending w = S k ->
     messagesComputation (page (fst (step w MessagesReady)))
     = Some {| computation := computations w |}
     /\ snd (step w MessagesReady) = [Autorun])
  /\ (forall h events,
        messagesComputation (page w) = Some h ->
        messagesComputation (page (fst (run w events))) = Some h
        /\ filter isAutorun (snd (run w events)) = [])
  /\ (forall chat userId sc events,
        (List.length
           (filter isAutorun (snd (run (constructor chat userId sc) events)))
         <= 1)%nat).
Proof.
  split; [|split].
  - intros k Hnone Hpending. simpl. rewrite Hpending.
    unfold messagesReady. simpl. rewrite Hnone. simpl. split; reflexivity.
  - intros h events. apply computation_kept_run.
  - intros chat userId sc events. now apply at_most_one_computation.
Qed.

Lemma C9_one_computation_witness :
  messagesComputation
    (page (fst (step (fst (step sampleWorld NgOnInit)) MessagesReady)))
  = Some {| computation := 0 |}
  /\ messagesComputation
       (page (fst (run listeningWorld [Scroll; MessagesReady; MessagesReady])))
     = Some {| computation := 0 |}
  /\ filter isAutorun
       (snd (run listeningWorld [Scroll; MessagesReady; MessagesReady]))
     = [].
Proof.
  destruct (C9_one_computation (fst (step sampleWorld NgOnInit)))
    as (Hfirst & _ & _).
  destruct (C9_one_computation listeningWorld) as (_ & Hkept & _).
  split.
  - apply (Hfirst 0%nat); reflexivity.
  - apply Hkept. reflexivity.
Defined.


(** * Further properties *)

(** ** The projection: which messages, in which order, in which groups *)

Lemma members_in {A} (groups : list (string * list A)) a :
  In a (members groups) <-> exists k xs, In (k, xs) groups /\ In a xs.
Proof.
  unfold members. rewrite in_concat. split.
  - intros (xs & Hxs & Ha). apply in_map_iff in Hxs.
    destruct Hxs as ([k xs'] & <- & Hin). now exists k, xs'.
  - intros (k & xs & Hin & Ha). exists xs. split; [|exact Ha].
    change xs with (snd (k, xs)). now apply in_map.
Qed.

Lemma in_insert a m l : In a (Messages.insert m l) <-> a = m \/ In a l.
Proof.
  induction l as [|h t IH]; simpl.
  - intuition.
  - destruct (Message.createdAt m <=? Message.createdAt h); simpl.
    + intuition.
    + rewrite IH. intuition.
Qed.

Lemma in_find a collection id :
  In a (Messages.find collection id)
  <-> In a collection /\ Message.chatId a = id.
Proof.
  unfold Messages.find, Messages.sortByCreatedAt.
  rewrite <- (String.eqb_eq (Message.chatId a) id).
  rewrite <- (filter_In (fun m => String.eqb (Message.chatId m) id)).
  induction (filter _ collection) as [|m l IH]; simpl.
  - reflexivity.
  - rewrite in_insert, IH. intuition.
Qed.

(** X2: the messages of the projection are the documents of the local
    collection that belong to the selected chat, each with its ownership
    set and otherwise untouched; no message of another chat is shown and
    none of this chat is left out. *)
Theorem projection_members p clock collection m :
  (exists g,
     In g (findMessagesDayGroups p clock collection) /\ In m (messages g))
  <-> (exists m0,
         In m0 collection
         /\ Message.chatId m0 = Chat._id (selectedChat p)
         /\ m = annotate p m0).
Proof.
  unfold findMessagesDayGroups.
  set (grouped := Underscore.groupBy _ _).
  assert (Hm : In m (members grouped)
               <-> exists m0, In m0 collection
                              /\ Message.chatId m0 = Chat._id (selectedChat p)
                              /\ m = annotate p m0).
  { subst grouped. rewrite members_groupBy, in_map_iff. split.
    - intros (m0 & <- & Hin). apply in_find in Hin. now exists m0.
    - intros (m0 & Hin & Hchat & ->). exists m0. split; [reflexivity|].
      now apply in_find. }
  rewrite <- Hm, members_in. split.
  - intros (g & Hg & Hin). apply in_map_iff in Hg.
    destruct Hg as ([k xs] & <- & Hg). now exists k, xs.
  - intros (k & xs & Hg & Hin).
    eexists. split; [apply in_map_iff; exists (k, xs); split;
                     [reflexivity | exact Hg] | exact Hin].
Qed.

Lemma projection_members_shown :
  exists g,
    In g (findMessagesDayGroups (page sampleWorld) sampleClock sampleCollection)
    /\ In (annotate (page sampleWorld) secondDayMessage) (messages g).
Proof.
  apply (projection_members (page sampleWorld) sampleClock sampleCollection).
  exists secondDayMessage. split; [left; reflexivity | split; reflexivity].
Defined.

(** X1: whatever the creation days of its messages, a chat projects to no
    group if the local collection holds none of its messages, and
    otherwise to one single group, labelled with the current day and
    marked as today, that holds all of them. *)
Theorem projection_single_group p clock collection :
  findMessagesDayGroups p clock collection
  = match Messages.find collection (Chat._id (selectedChat p)) with
    | [] => []
    | (_ :: _) as found =>
        [{| timestamp :=
              Moment.format_D_MMMM_Y clock
                (Moment.moment clock Moment.NoInput);
            messages := map (annotate p) found;
            today := true |}]
    end.
Proof.
  unfold findMessagesDayGroups.
  rewrite (groupBy_ext _ _ _ (format_message_is_today clock)).
  rewrite groupBy_constant.
  destruct (Messages.find collection (Chat._id (selectedChat p)));
    [reflexivity|].
  cbn [map]. rewrite String.eqb_refl. reflexivity.
Qed.

Section GroupByOrder.
Context {A : Type} (R : A -> A -> Prop) (f : A -> string).

Lemma in_push key x (groups : list (string * list A)) k xs :
  In (k, xs) (Underscore.push key x groups) ->
  In (k, xs) groups
  \/ xs = [x]
  \/ exists xs0, In (k, xs0) groups /\ xs = (xs0 ++ [x])%list.
Proof.
  induction groups as [|[k0 xs0] rest IH]; simpl.
  - intros [H | []]. right. left. congruence.
  - destruct (String.eqb key k0); simpl.
    + intros [H | H]; [|auto].
      inversion H; subst. right. right. exists xs0. auto.
    + intros [H | H]; [auto|].
      destruct (IH H) as [H1 | [H1 | (xs1 & H1 & H2)]]; auto.
      right. right. exists xs1. auto.
Qed.

Lemma StronglySorted_snoc xs x :
  StronglySorted R xs -> Forall (fun a => R a x) xs ->
  StronglySorted R (xs ++ [x]).
Proof.
  induction 1 as [|a xs Hs IH Ha]; intros Hx; simpl.
  - repeat constructor.
  - inversion Hx; subst. constructor; [now apply IH|].
    apply Forall_app. split; [exact Ha | now constructor].
Qed.

(** Groups built from a list in order are in order, whatever the keys. *)
Lemma fold_push_sorted l : forall groups,
  StronglySorted R l ->
  (forall k xs, In (k, xs) groups ->
                StronglySorted R xs
                /\ Forall (fun a => Forall (R a) l) xs) ->
  forall k xs,
    In (k, xs) (fold_left (fun g x => Underscore.push (f x) x g) l groups) ->
    StronglySorted R xs.
Proof.
  induction l as [|x l IH]; intros groups Hl Hg k xs Hin; simpl in Hin.
  - now apply (Hg k xs).
  - inversion Hl as [|? ? Hl' Hx]; subst.
    apply (IH (Underscore.push (f x) x groups)) with (k := k);
      [exact Hl' | | exact Hin].
    intros k' xs' Hin'.
    destruct (in_push _ _ _ _ _ Hin') as [H | [-> | (xs0 & H & ->)]].
    + destruct (Hg _ _ H) as [H1 H2]. split; [exact H1|].
      eapply Forall_impl; [|exact H2].
      intros a Ha. now inversion Ha.
    + split; repeat constructor. exact Hx.
    + destruct (Hg _ _ H) as [H1 H2]. split.
      * apply StronglySorted_snoc; [exact H1|].
        eapply Forall_impl; [|exact H2].
        intros a Ha. now inversion Ha.
      * apply Forall_app. split.
        -- eapply Forall_impl; [|exact H2].
           intros a Ha. now inversion Ha.
        -- repeat constructor. exact Hx.
Qed.

Lemma groupBy_sorted l k xs :
  StronglySorted R l -> In (k, xs) (Underscore.groupBy l f) ->
  StronglySorted R xs.
Proof.
  intros Hl. unfold Underscore.groupBy.
  apply (fold_push_sorted l []); [exact Hl|].
  intros ? ? [].
Qed.
End GroupByOrder.

(** X3: in every day group of the projection the messages stand in the
    order of their creation, earliest first. *)
Theorem projection_groups_ascending p clock collection g :
  In g (findMessagesDayGroups p clock collection) -> ascending (messages g).
Proof.
  unfold findMessagesDayGroups. intros Hg.
  apply in_map_iff in Hg. destruct Hg as ([k xs] & <- & Hg). simpl.
  apply StronglySorted_Sorted.
  eapply groupBy_sorted; [|exact Hg].
  apply Sorted_StronglySorted.
  - intros a b c Hab Hbc. lia.
  - apply (set_ownership_ascending
             (fun m => if looseEq (senderId p) (Message.senderId m)
                       then "mine" else "other")).
    apply find_ascending.
Qed.

Lemma projection_groups_ascending_witness :
  ascending
    [annotate (page sampleWorld) firstDayMessage;
     annotate (page sampleWorld) secondDayMessage].
Proof.
  apply (projection_groups_ascending (page sampleWorld) sampleClock
           sampleCollection
           {| timestamp := "3 January 2017";
              messages := [annotate (page sampleWorld) firstDayMessage;
                           annotate (page sampleWorld) secondDayMessage];
              today := true |}).
  vm_compute. left. reflexivity.
Defined.

(** ** Runs in which some kind of event does not occur *)

Lemma run_when (ok : Event -> bool) (P : World -> Prop)
  (R : Request -> Prop) :
  (forall w e, ok e = true -> P w ->
               P (fst (step w e)) /\ Forall R (snd (step w e))) ->
  forall events w,
    forallb ok events = true -> P w ->
    P (fst (run w events)) /\ Forall R (snd (run w events)).
Proof.
  intros Hstep events.
  induction events as [|e rest IH]; intros w Hok Hw.
  - split; [exact Hw | constructor].
  - simpl in Hok. apply andb_true_iff in Hok. destruct Hok as [He Hrest].
    rewrite run_cons. simpl.
    destruct (Hstep w e He Hw) as [H1 H2].
    destruct (IH _ Hrest H1) as [H3 H4].
    split; [exact H3 | now apply Forall_app].
Qed.

Lemma forallb_all {A} (l : list A) : forallb (fun _ => true) l = true.
Proof. induction l; simpl; auto. Qed.

(** ** Sending, continued *)

(** X4: the acknowledgment of a text message empties the input field
    whatever has been typed since the message was sent. *)
Theorem acknowledgment_clears_later_input w text :
  message (page w) <> "" ->
  snd (run w [SendClicked; Typed text; TextMessageAcknowledged])
  = [textCall (page w)]
  /\ message
       (page (fst (run w [SendClicked; Typed text;
                          TextMessageAcknowledged]))) = "".
Proof.
  intros Hne. apply String.eqb_neq in Hne.
  destruct w as [[] ? ? ? ? ? ? ?].
  cbn [run step]. unfold sendTextMessage. cbn [page message] in *.
  rewrite Hne. split; reflexivity.
Qed.

Lemma acknowledgment_clears_later_input_witness :
  message
    (page (fst (run typedWorld [SendClicked; Typed "hello again";
                                TextMessageAcknowledged]))) = "".
Proof.
  apply (acknowledgment_clears_later_input typedWorld "hello again").
  vm_compute. discriminate.
Defined.

Lemma send_step w :
  message (page w) <> "" ->
  step w SendClicked
  = (set_acksPending (S (acksPending w)) w, [textCall (page w)]).
Proof.
  intros Hne. apply String.eqb_neq in Hne.
  simpl. unfold sendTextMessage. now rewrite Hne.
Qed.

(** X5: nothing holds a second send back while the first is not
    acknowledged: sending [n] times in a row with a non-empty input issues
    the same call [n] times and leaves the page as it was. *)
Theorem repeated_send_repeats_call n : forall w,
  message (page w) <> "" ->
  snd (run w (repeat SendClicked n)) = repeat (textCall (page w)) n
  /\ page (fst (run w (repeat SendClicked n))) = page w
  /\ acksPending (fst (run w (repeat SendClicked n)))
     = (acksPending w + n)%nat.
Proof.
  induction n as [|n IH]; intros w Hne.
  - simpl. repeat split. lia.
  - cbn [repeat]. rewrite run_cons, (send_step w Hne). cbn [fst snd].
    assert (Hpage : page (set_acksPending (S (acksPending w)) w) = page w)
      by reflexivity.
    destruct (IH (set_acksPending (S (acksPending w)) w)) as (H1 & H2 & H3).
    { now rewrite Hpage. }
    rewrite H1, H2, H3, Hpage. repeat split. simpl. lia.
Qed.

Lemma repeated_send_repeats_call_witness :
  snd (run typedWorld [SendClicked; SendClicked])
  = [Call "addMessage" ["text"; "chat1"; "hello"];
     Call "addMessage" ["text"; "chat1"; "hello"]].
Proof.
  apply (repeated_send_repeats_call 2 typedWorld).
  vm_compute. discriminate.
Defined.

(** ** The chat of the requests *)

Lemma chat_kept w e :
  selectedChat (page (fst (step w e))) = selectedChat (page w)
  /\ senderId (page (fst (step w e))) = senderId (page w)
  /\ title (page (fst (step w e))) = title (page w)
  /\ picture (page (fst (step w e))) = picture (page w).
Proof. by_cases w e; repeat split. Qed.

Lemma requests_of_chat w e r :
  In r (snd (step w e)) ->
  forall c, requestChat r = Some c -> c = Chat._id (selectedChat (page w)).
Proof.
  by_cases w e; simpl; intros Hin c Hc;
    repeat match goal with
           | H : _ \/ _ |- _ => destruct H
           | H : False |- _ => destruct H
           end;
    subst; simpl in Hc; congruence.
Qed.

(** X6: the selected chat, the sender, the title and the picture of a page
    never change, and every subscription and every addMessage call the
    page ever issues is made for the chat it was opened with. *)
Theorem requests_for_selected_chat chat userId sc events :
  selectedChat (page (fst (run (constructor chat userId sc) events))) = chat
  /\ senderId (page (fst (run (constructor chat userId sc) events))) = userId
  /\ title (page (fst (run (constructor chat userId sc) events)))
     = Chat.title chat
  /\ picture (page (fst (run (constructor chat userId sc) events)))
     = Chat.picture chat
  /\ Forall (fun r => forall c, requestChat r = Some c -> c = Chat._id chat)
            (snd (run (constructor chat userId sc) events)).
Proof.
  set (P := fun w => selectedChat (page w) = chat
                     /\ senderId (page w) = userId
                     /\ title (page w) = Chat.title chat
                     /\ picture (page w) = Chat.picture chat).
  destruct (run_when (fun _ => true) P
              (fun r => forall c, requestChat r = Some c -> c = Chat._id chat))
    with (events := events) (w := constructor chat userId sc)
    as [(H1 & H2 & H3 & H4) H5].
  - intros w e _ (H1 & H2 & H3 & H4).
    destruct (chat_kept w e) as (K1 & K2 & K3 & K4).
    split; [unfold P; repeat split; congruence|].
    apply Forall_forall. intros r Hr c Hc.
    rewrite <- H1. now apply (requests_of_chat w e r).
  - apply forallb_all.
  - unfold P. repeat split.
  - repeat split; assumption.
Qed.

(** ** Pagination, continued *)

Lemma before_count_step w e :
  isCountMessagesResult e = false ->
  scrollListener w = NotListening
  /\ (autoScroller (page w) = None -> messagesBatchCounter (page w) = 0)
  /\ (autoScroller (page w) <> None -> messagesBatchCounter (page w) = 1) ->
  scrollListener (fst (step w e)) = NotListening
  /\ (autoScroller (page (fst (step w e))) = None ->
      messagesBatchCounter (page (fst (step w e))) = 0)
  /\ (autoScroller (page (fst (step w e))) <> None ->
      messagesBatchCounter (page (fst (step w e))) = 1).
Proof.
  intros He (Hl & Hnew & Hinit).
  by_cases w e; try discriminate; subst;
    repeat split; intros; try congruence; auto;
    try (rewrite Hnew by reflexivity; reflexivity);
    apply Hinit; discriminate.
Qed.

(** X7: as long as countMessages has not answered, scroll events are not
    listened to: whatever else happens, the page requests no batch beyond
    the first. *)
Theorem no_pagination_before_count chat userId sc events :
  forallb (fun e => negb (isCountMessagesResult e)) events = true ->
  batches (snd (run (constructor chat userId sc) events)) = []
  \/ batches (snd (run (constructor chat userId sc) events)) = [1].
Proof.
  intros Hok.
  set (w0 := constructor chat userId sc).
  set (P := fun w =>
              scrollListener w = NotListening
              /\ (autoScroller (page w) = None ->
                  messagesBatchCounter (page w) = 0)
              /\ (autoScroller (page w) <> None ->
                  messagesBatchCounter (page w) = 1)).
  destruct (run_when (fun e => negb (isCountMessagesResult e)) P
              (fun _ => True)) with (events := events) (w := w0)
    as [(_ & H0 & H1) _].
  - intros w e He Hw. apply negb_true_iff in He.
    split; [now apply before_count_step | apply Forall_forall; auto].
  - exact Hok.
  - unfold P, w0. simpl. repeat split; congruence.
  - destruct (run_batches events w0) as [Hinc Hlen].
    change (messagesBatchCounter (page w0)) with 0 in Hinc, Hlen.
    destruct (batches (snd (run w0 events))) as [|b [|b' rest]].
    + now left.
    + right. destruct Hinc as [-> _]. reflexivity.
    + exfalso. cbn [List.length] in Hlen.
      destruct (autoScroller (page (fst (run w0 events)))) eqn:E.
      * rewrite H1 in Hlen by congruence. lia.
      * rewrite H0 in Hlen by reflexivity. lia.
Qed.

Lemma no_pagination_before_count_witness :
  batches
    (snd (run sampleWorld
            [NgOnInit; MessagesReady; Scroll; Mutation; Scroll])) = []
  \/ batches
       (snd (run sampleWorld
               [NgOnInit; MessagesReady; Scroll; Mutation; Scroll])) = [1].
Proof.
  apply (no_pagination_before_count sampleChat (Some "me") sampleScroller
           [NgOnInit; MessagesReady; Scroll; Mutation; Scroll]).
  reflexivity.
Defined.

Lemma loading_step w e :
  isMessagesReady e = false ->
  loadingMessages (page w) = true /\ autoScroller (page w) <> None ->
  (loadingMessages (page (fst (step w e))) = true
   /\ autoScroller (page (fst (step w e))) <> None)
  /\ Forall (fun r => isSubscribe r = false /\ isSetScrollTop r = false)
            (snd (step w e)).
Proof.
  intros He [Hl Ha].
  by_cases w e; try discriminate; subst;
    repeat split; try congruence; repeat constructor; try discriminate.
Qed.

(** X8: a subscription that never becomes ready holds the page for good:
    while [loadingMessages] is set and no ready callback comes, no event
    issues a subscription or moves the scroll position, and the flag stays
    set. *)
Theorem loading_blocks_until_ready w events :
  loadingMessages (page w) = true -> autoScroller (page w) <> None ->
  forallb (fun e => negb (isMessagesReady e)) events = true ->
  loadingMessages (page (fst (run w events))) = true
  /\ filter isSubscribe (snd (run w events)) = []
  /\ filter isSetScrollTop (snd (run w events)) = [].
Proof.
  intros Hl Ha Hok.
  destruct (run_when (fun e => negb (isMessagesReady e))
              (fun w => loadingMessages (page w) = true
                        /\ autoScroller (page w) <> None)
              (fun r => isSubscribe r = false /\ isSetScrollTop r = false))
    with (events := events) (w := w) as [[H1 _] H2].
  - intros w' e He Hw. apply negb_true_iff in He. now apply loading_step.
  - exact Hok.
  - now split.
  - split; [exact H1|].
    split; apply filter_nil_Forall; eapply Forall_impl; try exact H2;
      simpl; intros r [? ?]; assumption.
Qed.

Lemma loading_blocks_until_ready_witness :
  loadingMessages
    (page (fst (run loadingWorld
                  [CountMessagesResult 2; Scroll; Mutation; Scroll])))
  = true
  /\ filter isSubscribe
       (snd (run loadingWorld
               [CountMessagesResult 2; Scroll; Mutation; Scroll])) = []
  /\ filter isSetScrollTop
       (snd (run loadingWorld
               [CountMessagesResult 2; Scroll; Mutation; Scroll])) = [].
Proof.
  apply (loading_blocks_until_ready loadingWorld
           [CountMessagesResult 2; Scroll; Mutation; Scroll]).
  - reflexivity.
  - vm_compute. discriminate.
  - reflexivity.
Defined.

Lemma listening_step c w e :
  findsCount c e = false ->
  invariant w /\ scrollListener w = Listening c ->
  invariant (fst (step w e)) /\ scrollListener (fst (step w e)) = Listening c.
Proof.
  intros He [Hinv Hl]. split; [now apply invariant_step|].
  destruct Hinv as [_ _ Hcount].
  by_cases w e; simpl in *; try reflexivity; try congruence;
    try (injection Hl as ->; rewrite He in *; discriminate);
    subst; specialize (Hcount eq_refl); discriminate.
Qed.

(** X13: the listener goes only when a delivered list has exactly the
    captured length: as long as every list [Messages.find()] delivers is
    shorter or longer than the captured count, the scroll events stay
    listened to. *)
Theorem listener_kept_while_count_differs w c events :
  reachable w -> scrollListener w = Listening c ->
  forallb (fun e => negb (findsCount c e)) events = true ->
  scrollListener (fst (run w events)) = Listening c.
Proof.
  intros Hr Hl Hok. apply invariant_reachable in Hr.
  destruct (run_when (fun e => negb (findsCount c e))
              (fun w => invariant w /\ scrollListener w = Listening c)
              (fun _ => True))
    with (events := events) (w := w) as [[_ H] _].
  - intros w' e He Hw. apply negb_true_iff in He.
    split; [now apply listening_step | apply Forall_forall; auto].
  - exact Hok.
  - now split.
  - exact H.
Qed.

Lemma listener_kept_while_count_differs_witness :
  scrollListener
    (fst (run listeningWorld
            [MessagesFound [firstDayMessage];
             MessagesFound
               [firstDayMessage; secondDayMessage; otherChatMessage];
             Scroll]))
  = Listening 2.
Proof.
  apply (listener_kept_while_count_differs listeningWorld 2).
  - exact listeningWorld_reachable.
  - reflexivity.
  - reflexivity.
Defined.

(** ** Scrolling, continued *)

Lemma destroyed_step w e :
  autoScroller (page w) = Some {| connected := false |} ->
  autoScroller (page (fst (step w e))) = Some {| connected := false |}
  /\ Forall (fun r => isObserverRequest r = false) (snd (step w e)).
Proof.
  intros Ha.
  by_cases w e; try discriminate; subst;
    split; try congruence; repeat constructor.
Qed.

(** X9: after [ngOnDestroy] the observer stays disconnected: no event moves
    the scroll position, observes the list again or disconnects a second
    time. *)
Theorem no_scroll_after_destroy w events :
  autoScroller (page w) = Some {| connected := true |} ->
  snd (step w NgOnDestroy) = [Disconnect]
  /\ filter isObserverRequest
       (snd (run (fst (step w NgOnDestroy)) events)) = []
  /\ autoScroller (page (fst (run (fst (step w NgOnDestroy)) events)))
     = Some {| connected := false |}.
Proof.
  intros Ha.
  assert (Hd : autoScroller (page (fst (step w NgOnDestroy)))
               = Some {| connected := false |}).
  { simpl. rewrite Ha. unfold ngOnDestroy. rewrite Ha. reflexivity. }
  split; [simpl; rewrite Ha; unfold ngOnDestroy; now rewrite Ha|].
  destruct (run_when (fun _ => true)
              (fun w => autoScroller (page w)
                        = Some {| connected := false |})
              (fun r => isObserverRequest r = false))
    with (events := events) (w := fst (step w NgOnDestroy)) as [H1 H2].
  - intros w' e _ Hw. now apply destroyed_step.
  - apply forallb_all.
  - exact Hd.
  - split; [now apply filter_nil_Forall | exact H1].
Qed.

Lemma no_scroll_after_destroy_witness :
  filter isObserverRequest
    (snd (run destroyedWorld [Mutation; NgOnDestroy; NgOnInit; Mutation]))
  = [].
Proof.
  apply (no_scroll_after_destroy listeningWorld
           [Mutation; NgOnDestroy; NgOnInit; Mutation]).
  reflexivity.
Defined.

(** X10: one round of pagination keeps the reader's place.  On an idle
    page scrolled to the top, the scroll event requests the next batch;
    when the list has grown to a new scroll height and the batch is ready,
    the next insertion sets the scroll position to the growth of the
    scroll height, the new height less the height at the time of the
    request, and leaves the offset at zero and the page idle again. *)
Theorem pagination_round_keeps_place w c h sc :
  autoScroller (page w) = Some {| connected := true |} ->
  scrollListener w = Listening c ->
  loadingMessages (page w) = false ->
  subscriptionsPending w = 0%nat ->
  messagesComputation (page w) = Some h ->
  scrollTop (scroller w) = 0 ->
  snd (run w [Scroll; Layout sc; MessagesReady; Mutation])
  = [Subscribe "messages" (Chat._id (selectedChat (page w)))
               (messagesBatchCounter (page w) + 1);
     SetScrollTop (scrollHeight sc - scrollHeight (scroller w))]
  /\ scrollOffset
       (page (fst (run w [Scroll; Layout sc; MessagesReady; Mutation]))) = 0
  /\ loadingMessages
       (page (fst (run w [Scroll; Layout sc; MessagesReady; Mutation])))
     = false
  /\ subscriptionsPending
       (fst (run w [Scroll; Layout sc; MessagesReady; Mutation])) = 0%nat.
Proof.
  intros Ha Hl Hload Hp Hc Htop.
  destruct w as [[] [] ? ? ? ? ? ?]. cbn [page scroller autoScroller
    scrollListener loadingMessages subscriptionsPending messagesComputation
    scrollTop] in *.
  subst. cbn [run step]. handlers. repeat split.
Qed.

Lemma pagination_round_keeps_place_witness :
  snd (run listeningWorld
         [Scroll; Layout {| scrollTop := 0; scrollHeight := 1300 |};
          MessagesReady; Mutation])
  = [Subscribe "messages" "chat1" 2; SetScrollTop 800].
Proof.
  apply (pagination_round_keeps_place listeningWorld 2
           {| computation := 0 |}
           {| scrollTop := 0; scrollHeight := 1300 |});
    reflexivity.
Defined.

(** ** The live computation, continued *)

Lemma projection_kept w e :
  (messagesDayGroups (page w) = None <-> messagesComputation (page w) = None)
  /\ (forall g, messagesDayGroups (page w) = Some g ->
                forall clock collection,
                  g clock collection
                  = findMessagesDayGroups (page w) clock collection) ->
  (messagesDayGroups (page (fst (step w e))) = None
   <-> messagesComputation (page (fst (step w e))) = None)
  /\ (forall g, messagesDayGroups (page (fst (step w e))) = Some g ->
                forall clock collection,
                  g clock collection
                  = findMessagesDayGroups (page (fst (step w e)))
                      clock collection).
Proof.
  intros [Hiff Hg].
  by_cases w e; subst;
    (split;
     [ try exact Hiff; try (split; discriminate);
       try (destruct Hiff as [H1 H2];
            split; intros H; try discriminate;
            (specialize (H1 H) || specialize (H2 H)); discriminate)
     | intros g Hsome clock collection;
       try (injection Hsome as <-; reflexivity);
       exact (Hg g Hsome clock collection) ]).
Qed.

(** X11: the view has day groups exactly from the first ready callback on,
    and what it has is always the projection for the selected chat and the
    current user, as [findMessagesDayGroups] computes it from the clock and
    the local collection. *)
Theorem projection_present_once_ready w :
  reachable w ->
  (messagesDayGroups (page w) = None <-> messagesComputation (page w) = None)
  /\ (forall g, messagesDayGroups (page w) = Some g ->
                forall clock collection,
                  g clock collection
                  = findMessagesDayGroups (page w) clock collection).
Proof.
  intros (chat & userId & sc & events & ->).
  apply (run_invariant
           (fun w =>
              (messagesDayGroups (page w) = None
               <-> messagesComputation (page w) = None)
              /\ (forall g, messagesDayGroups (page w) = Some g ->
                            forall clock collection,
                              g clock collection
                              = findMessagesDayGroups (page w)
                                  clock collection))).
  - intros w e. apply projection_kept.
  - simpl. split; [split; reflexivity | discriminate].
Qed.

Lemma projection_present_once_ready_witness :
  (messagesDayGroups (page listeningWorld) = None
   <-> messagesComputation (page listeningWorld) = None)
  /\ (forall g, messagesDayGroups (page listeningWorld) = Some g ->
                forall clock collection,
                  g clock collection
                  = findMessagesDayGroups (page listeningWorld)
                      clock collection).
Proof.
  apply (projection_present_once_ready listeningWorld).
  exists sampleChat, (Some "me"), sampleScroller,
    [NgOnInit; CountMessagesResult 2; MessagesReady].
  reflexivity.
Defined.

(** ** Pictures *)

Lemma picture_step w e :
  (List.length (filter isPictureCall (snd (step w e)))
   + uploadsPending (fst (step w e)))%nat
  = (uploadsPending w
     + List.length (filter isUpload (snd (step w e))))%nat.
Proof. by_cases w e; simpl; lia. Qed.

Lemma picture_run events : forall w,
  (List.length (filter isPictureCall (snd (run w events)))
   + uploadsPending (fst (run w events)))%nat
  = (uploadsPending w
     + List.length (filter isUpload (snd (run w events))))%nat.
Proof.
  induction events as [|e rest IH]; intros w.
  - simpl. lia.
  - rewrite run_cons. cbn [fst snd].
    rewrite !filter_app, !length_app.
    pose proof (picture_step w e). pose proof (IH (fst (step w e))). lia.
Qed.

(** X12: a picture message is sent only for a picture that was uploaded:
    over the life of a page the addMessage calls of kind picture and the
    uploads still under way add up to the uploads started, so there are
    never more such calls than uploads. *)
Theorem picture_calls_follow_uploads chat userId sc events :
  (List.length
     (filter isPictureCall (snd (run (constructor chat userId sc) events)))
   + uploadsPending (fst (run (constructor chat userId sc) events)))%nat
  = List.length
      (filter isUpload (snd (run (constructor chat userId sc) events)))
  /\ (List.length
        (filter isPictureCall (snd (run (constructor chat userId sc) events)))
      <= List.length
           (filter isUpload (snd (run (constructor chat userId sc) events))))%nat.
Proof.
  pose proof (picture_run events (constructor chat userId sc)) as H.
  cbn [uploadsPending constructor] in H. split; lia.
Qed.
